(** * A shallow embedding of the grid engine of pymepps

    Sources: [pymepps/grid/grid.py], [pymepps/grid/lonlat.py],
    [pymepps/grid/curvilinear.py].

    Numbers.  The grids hold Python floats (and ints).  Every numeric
    definition below is written once, over a class [Scalar] that gives the
    arithmetic and comparisons numpy uses; two instances are provided:
    - [float_scalar], IEEE binary64 via Rocq's primitive floats, which is
      what Python and numpy compute with;
    - [Q_scalar], exact rationals, used where a general argument about the
      order of values is needed.

    Arrays.  A numpy array is its shape and its row-major buffer
    ([ndarray]).  A grid's descriptor ([_grid_dict]) is a [gmap] from
    string keys to Python values. *)

From Stdlib Require Import ZArith QArith Qround Lia Lqa Bool Floats.
From Stdlib Require Import Strings.String Strings.Ascii.
From Stdlib Require Import Sorting.Sorted.
From stdpp Require Import base list gmap strings.

Set Warnings "-inexact-float".


(** ** Numbers *)

Class Scalar (F : Type) := {
  s_add : F -> F -> F;
  s_sub : F -> F -> F;
  s_mul : F -> F -> F;
  s_div : F -> F -> F;
  s_ltb : F -> F -> bool;        (* Python [<] *)
  s_leb : F -> F -> bool;        (* Python [<=] *)
  s_eqb : F -> F -> bool;        (* Python [==] *)
  s_of_Z : Z -> F;
  s_ceil : F -> option Z;        (* [npy_ceil]; [None] for nan and inf *)
  s_pi : F                       (* [np.pi] *)
}.

(** The value of a finite binary64 number as an exact rational. *)
Definition spec_float_to_Q (f : SpecFloat.spec_float) : option Q :=
  match f with
  | SpecFloat.S754_zero _ => Some 0%Q
  | SpecFloat.S754_finite s m e =>
      let n := if s then Z.neg m else Z.pos m in
      match e with
      | Z.neg p => Some (n # (2 ^ p)%positive)
      | _ => Some (inject_Z (n * 2 ^ e)%Z)
      end
  | _ => None
  end.

Definition float_of_Z (z : Z) : float :=
  if (z <? 0)%Z then PrimFloat.opp (PrimFloat.of_uint63 (Uint63.of_Z (- z)))
  else PrimFloat.of_uint63 (Uint63.of_Z z).

#[global] Instance float_scalar : Scalar float := {
  s_add := PrimFloat.add;
  s_sub := PrimFloat.sub;
  s_mul := PrimFloat.mul;
  s_div := PrimFloat.div;
  s_ltb := PrimFloat.ltb;
  s_leb := PrimFloat.leb;
  s_eqb := PrimFloat.eqb;
  s_of_Z := float_of_Z;
  s_ceil := fun x => option_map Qceiling (spec_float_to_Q (FloatOps.Prim2SF x));
  s_pi := 0x1.921fb54442d18p+1%float
}.

(** [np.pi] is the binary64 number 884279719003555 / 2^48. *)
#[global] Instance Q_scalar : Scalar Q := {
  s_add := Qplus;
  s_sub := Qminus;
  s_mul := Qmult;
  s_div := Qdiv;
  s_ltb := fun x y => negb (Qle_bool y x);
  s_leb := Qle_bool;
  s_eqb := Qeq_bool;
  s_of_Z := inject_Z;
  s_ceil := fun x => Some (Qceiling x);
  s_pi := 884279719003555 # 281474976710656
}.

(** ** Python outcomes *)

Inductive pyexc :=
  | ValueError (msg : string)
  | KeyError (key : string)
  | IndexError (msg : string)
  | TypeError (msg : string)
  | AxisError (msg : string)
  | ZeroDivisionError.

(** A call returns, raises, or does not return (a loop that never ends). *)
Inductive res (A : Type) :=
  | Ok (a : A)
  | Raise (e : pyexc)
  | Diverge.
Arguments Ok {A} a.
Arguments Raise {A} e.
Arguments Diverge {A}.

Definition bind {A B} (m : res A) (k : A -> res B) : res B :=
  match m with
  | Ok a => k a
  | Raise e => Raise e
  | Diverge => Diverge
  end.

Notation "'let*' x ':=' m 'in' k" := (bind m (fun x => k))
  (at level 200, x pattern, m at level 100, right associativity).

(** Run [f] over a list, stopping at the first exception. *)
Fixpoint res_mapM {A B} (f : A -> res B) (l : list A) : res (list B) :=
  match l with
  | [] => Ok []
  | x :: t => let* y := f x in let* ys := res_mapM f t in Ok (y :: ys)
  end.

(** ** numpy arrays *)

Record ndarray (F : Type) := mk_nd { nd_shape : list nat; nd_flat : list F }.
Arguments mk_nd {F} nd_shape nd_flat.
Arguments nd_shape {F} _.
Arguments nd_flat {F} _.

Definition ndim {F} (a : ndarray F) : nat := length (nd_shape a).

(** [shape[-k:]]: Python slicing keeps the whole tuple when [k] exceeds it. *)
Definition last_dims (k : nat) (s : list nat) : list nat :=
  drop (length s - k) s.

(** The rows of a row-major buffer whose last axis has length [c]. *)
Definition rows_of_all {A} (c : nat) (l : list A) : list (list A) :=
  map (fun i => take c (drop (i * c) l)) (seq 0 (length l / c)).

(** ** Python values and grid descriptors *)

Section Descriptors.
Context {F : Type} `{Scalar F}.

Inductive pyval :=
  | PyFloat (x : F)
  | PyInt (z : Z)
  | PyStr (s : string)
  | PyFloats (l : list F).

(** A number taken from the descriptor (an int is used as a float). *)
Definition as_num (v : pyval) : res F :=
  match v with
  | PyFloat x => Ok x
  | PyInt z => Ok (s_of_Z z)
  | _ => Raise (TypeError "unsupported operand type")
  end.

(** [d[k]] *)
Definition getitem (d : gmap string pyval) (k : string) : res pyval :=
  match d !! k with
  | Some v => Ok v
  | None => Raise (KeyError k)
  end.

End Descriptors.
Arguments pyval F : clear implicits.

(** ** Strings: [str.lower] and the [in] test on strings *)

Definition lower_ascii (c : ascii) : ascii :=
  let n := nat_of_ascii c in
  if (65 <=? n)%nat && (n <=? 90)%nat then ascii_of_nat (n + 32) else c.

Fixpoint str_lower (s : string) : string :=
  match s with
  | EmptyString => EmptyString
  | String c r => String (lower_ascii c) (str_lower r)
  end.

Definition str_contains (sub s : string) : bool :=
  match String.index 0 sub s with Some _ => true | None => false end.

Section Numpy.
Context {F : Type} `{Scalar F}.

Definition s_zero : F := s_of_Z 0%Z.
Definition s_isnan (x : F) : bool := negb (s_eqb x x).

(** [np.arange(start, stop, step)] for Python floats (numpy's
    [PyArray_ArangeObj]): the length is [ceil((stop - start) / step)], the
    first two entries are [start] and [start + step], and [fill] writes
    entry [i] as [start + i * delta] with [delta = (start + step) - start]. *)
Definition arange (start stop step : F) : res (list F) :=
  if s_eqb step s_zero then Raise ZeroDivisionError else
  match s_ceil (s_div (s_sub stop start) step) with
  | None => Raise (ValueError "arange: cannot compute length")
  | Some len =>
      let n := Z.to_nat len in
      let next := s_add start step in
      let delta := s_sub next start in
      Ok (map (fun i => match i with
                        | O => start
                        | 1%nat => next
                        | _ => s_add start (s_mul (s_of_Z (Z.of_nat i)) delta)
                        end) (seq 0 n))
  end.

(** [known_units]: ['deg'] is the identity, ['rad'] maps [x] to
    [x*180/np.pi]; [convert_to_deg] takes the first key (in this order)
    contained in [unit.lower()]. *)
Definition convert_to_deg (field : list F) (unit : pyval F) : res (list F) :=
  match unit with
  | PyStr u =>
      let u := str_lower u in
      if str_contains "deg" u then Ok field
      else if str_contains "rad" u then
        Ok (map (fun x => s_div (s_mul x (s_of_Z 180%Z)) s_pi) field)
      else Raise (ValueError "There is no calculating rule for the given unit")
  | _ => Raise (TypeError "'unit' has no attribute 'lower'")
  end.

End Numpy.

(** ** Grids *)

Section Grids.
Context {F : Type} `{Scalar F}.

Abbreviation gdict := (gmap string (pyval F)).

Inductive grid :=
  | LonLatGrid (d : gdict)
  | CurvilinearGrid (d : gdict)
  | UnstructuredGrid (d : gdict).

Definition lonlat_defaults : gdict :=
  list_to_map [("gridtype", PyStr "lonlat"); ("xlongname", PyStr "longitude");
               ("xname", PyStr "lon"); ("xunits", PyStr "degrees");
               ("ylongname", PyStr "latitude"); ("yname", PyStr "lat");
               ("yunits", PyStr "degrees")].

Definition curvilinear_defaults : gdict :=
  list_to_map [("gridtype", PyStr "curvilinear"); ("xlongname", PyStr "longitude");
               ("xname", PyStr "lon"); ("xunits", PyStr "degrees");
               ("ylongname", PyStr "latitude"); ("yname", PyStr "lat");
               ("yunits", PyStr "degrees"); ("nvertex", PyInt 4%Z)].

(** [LonLatGrid.__init__]: the defaults, then [self._grid_dict.update(grid_dict)]
    ([∪] on [gmap] is left-biased). *)
Definition new_LonLatGrid (d : gdict) : grid := LonLatGrid (d ∪ lonlat_defaults).

(** [CurvilinearGrid.__init__] replaces the dictionary built by the
    parent constructor by its own defaults updated with [grid_dict]. *)
Definition new_CurvilinearGrid (d : gdict) : grid :=
  CurvilinearGrid (d ∪ curvilinear_defaults).

Definition grid_dict (g : grid) : gdict :=
  match g with LonLatGrid d | CurvilinearGrid d | UnstructuredGrid d => d end.

(** [Grid.len_coords]: [Grid.__init__] sets the private [__nr_coords] to 2
    and no class of the source changes it. *)
Definition len_coords (g : grid) : nat :=
  match g with UnstructuredGrid _ => 1 | _ => 2 end.

(** [LonLatGrid._calc_single_dim(dim_name)] *)
Definition calc_single_dim (d : gdict) (dim : string) : res (list F) :=
  let* vstart := getitem d (dim +:+ "first") in
  let* vsteps := getitem d (dim +:+ "size") in
  let* vwidth := getitem d (dim +:+ "inc") in
  let* start := as_num vstart in
  let* steps := as_num vsteps in
  let* width := as_num vwidth in
  arange start (s_add start (s_mul steps width)) width.

(** [LonLatGrid._construct_dim] (inherited by [CurvilinearGrid]). *)
Definition construct_dim (d : gdict) : res (list F * list F) :=
  let* ys := calc_single_dim d "y" in
  let* xs := calc_single_dim d "x" in
  Ok (ys, xs).

(** [lat, lon = np.meshgrid(dim_lat, dim_lon)] followed by [.transpose()]:
    [lat[i,j] = dim_lat[i]] and [lon[i,j] = dim_lon[j]]. *)
Definition mesh_lat (ys : list F) (nx : nat) : ndarray F :=
  mk_nd [length ys; nx] (ys ≫= fun y => replicate nx y).

Definition mesh_lon (ny : nat) (xs : list F) : ndarray F :=
  mk_nd [ny; length xs] (mjoin (replicate ny xs)).

(** [np.array(vals).reshape(ny, nx)] *)
Definition reshape2 (v : pyval F) (ny nx : nat) : res (ndarray F) :=
  match v with
  | PyFloats l =>
      if decide (length l = ny * nx)%nat then Ok (mk_nd [ny; nx] l)
      else Raise (ValueError "cannot reshape array")
  | _ => Raise (ValueError "cannot reshape array")
  end.

(** Modelled from the spec: [UnstructuredGrid] (its module
    [pymepps/grid/unstructured.py] is not part of the sources): the
    latitudes and longitudes are the flat [yvals] and [xvals] as given. *)
Definition unstructured_lat_lon (d : gdict) : res (ndarray F * ndarray F) :=
  let* yv := getitem d "yvals" in
  let* xv := getitem d "xvals" in
  match yv, xv with
  | PyFloats ys, PyFloats xs => Ok (mk_nd [length ys] ys, mk_nd [length xs] xs)
  | _, _ => Raise (TypeError "vals")
  end.

(** [_calc_lat_lon] of each grid class ([raw_lat_lon] returns it). *)
Definition calc_lat_lon (g : grid) : res (ndarray F * ndarray F) :=
  match g with
  | LonLatGrid d =>
      let* dims := construct_dim d in
      let* yunits := getitem d "yunits" in
      let* dim_lat := convert_to_deg dims.1 yunits in
      let* xunits := getitem d "xunits" in
      let* dim_lon := convert_to_deg dims.2 xunits in
      Ok (mesh_lat dim_lat (length dim_lon), mesh_lon (length dim_lat) dim_lon)
  | CurvilinearGrid d =>
      let* dims := construct_dim d in
      let* yv := getitem d "yvals" in
      let* lat := reshape2 yv (length dims.1) (length dims.2) in
      let* xv := getitem d "xvals" in
      let* lon := reshape2 xv (length dims.1) (length dims.2) in
      Ok (lat, lon)
  | UnstructuredGrid d => unstructured_lat_lon d
  end.

End Grids.
Arguments grid F : clear implicits.

(** ** [Grid.normalize_lat_lon] *)

Section Normalize.
Context {F : Type} `{Scalar F}.

Definition gt180 (x : F) : bool := s_ltb (s_of_Z 180%Z) x.

(** One pass of the loop body [lon[lon > 180] -= 360]. *)
Definition wrap_step (l : list F) : list F :=
  map (fun x => if gt180 x then s_sub x (s_of_Z 360%Z) else x) l.

(** [while np.any(lon > 180): lon[lon > 180] -= 360], run for at most
    [fuel] passes; [Diverge] when the loop is still running. *)
Fixpoint wrap_loop (fuel : nat) (l : list F) : res (list F) :=
  if existsb gt180 l then
    match fuel with
    | O => Diverge
    | S f => wrap_loop f (wrap_step l)
    end
  else Ok l.

(** The number of passes the loop needs: [ceil((x - 180) / 360)] for the
    largest entry (enough in exact arithmetic; an infinite entry, whose
    ceiling does not exist, keeps the loop running forever). *)
Definition wrap_fuel (l : list F) : nat :=
  S (foldr (fun x acc =>
              if gt180 x then
                match s_ceil (s_div (s_sub x (s_of_Z 180%Z)) (s_of_Z 360%Z)) with
                | Some k => Nat.max (Z.to_nat k) acc
                | None => O
                end
              else acc) O l).

(** The loop as the function runs it. *)
Definition wrap_lon (l : list F) : res (list F) := wrap_loop (wrap_fuel l) l.

(** [np.argsort] of a 1-D sequence: the indices in the order of their
    values, equal values in their original order (numpy's default sort is
    an insertion sort on short axes). *)
Fixpoint ins_key (k : F) (i : nat) (l : list (F * nat)) : list (F * nat) :=
  match l with
  | [] => [(k, i)]
  | (k', i') :: t => if s_ltb k k' then (k, i) :: l else (k', i') :: ins_key k i t
  end.

Fixpoint ins_all (l : list (F * nat)) (acc : list (F * nat)) : list (F * nat) :=
  match l with
  | [] => acc
  | (k, i) :: t => ins_all t (ins_key k i acc)
  end.

Definition argsort (l : list F) : list nat :=
  map snd (ins_all (zip l (seq 0 (length l))) []).

(** Row [i] and column [j] of an [r] by [c] row-major buffer. *)
Definition row_of (c : nat) (flat : list F) (i : nat) : list F :=
  take c (drop (i * c) flat).

Definition col_of (r c : nat) (flat : list F) (j : nat) : list F :=
  omap (fun i => flat !! (i * c + j)%nat) (seq 0 r).

(** [np.argsort(a, 0)] and [np.argsort(a, 1)] of an [r] by [c] array, as
    functions of the position [(i, j)]. *)
Definition argsort0 (r c : nat) (flat : list F) (i j : nat) : nat :=
  default O (argsort (col_of r c flat j) !! i).

Definition argsort1 (c : nat) (flat : list F) (i j : nat) : nat :=
  default O (argsort (row_of c flat i) !! j).

(** [a[I, J]] for an [r'] by [c'] block [a] and [r] by [c] index arrays. *)
Definition fancy_block (r c r' c' : nat) (blk : list F) (I J : nat -> nat -> nat)
  : res (list F) :=
  res_mapM (fun p : nat * nat =>
          let (i, j) := p in
          if decide (I i j < r' /\ J i j < c')%nat then
            match blk !! (I i j * c' + J i j)%nat with
            | Some v => Ok v
            | None => Raise (IndexError "index out of bounds")
            end
          else Raise (IndexError "index out of bounds"))
       (seq 0 r ≫= fun i => map (fun j => (i, j)) (seq 0 c)).

(** [data[..., I, J]]: the same selection in every trailing block. *)
Definition fancy_trailing (r c : nat) (data : ndarray F) (I J : nat -> nat -> nat)
  : res (ndarray F) :=
  match reverse (nd_shape data) with
  | c' :: r' :: rlead =>
      let lead := reverse rlead in
      let nb := foldr Nat.mul 1%nat lead in
      let* blocks := res_mapM (fun b => fancy_block r c r' c'
                             (take (r' * c') (drop (b * (r' * c')) (nd_flat data))) I J)
                          (seq 0 nb) in
      Ok (mk_nd (lead ++ [r; c]) (mjoin blocks))
  | _ => Raise (IndexError "too many indices for array")
  end.
End Normalize.

Section Normalize2.
Context {F : Type} `{Scalar F}.

(** [Grid.normalize_lat_lon(lat, lon, data)].  The index arrays of the two
    argsorts are combined as [lat[sort_order_lat, sort_order_lon]]; a grid
    always passes two 2-D fields of one shape, other shape combinations are
    reported as the indexing error numpy gives for unequal index shapes. *)
Definition normalize_lat_lon (lat lon : ndarray F) (data : option (ndarray F))
  : res (ndarray F * ndarray F * option (ndarray F)) :=
  let* lonw := wrap_lon (nd_flat lon) in
  match nd_shape lat, nd_shape lon with
  | [], _ => Raise (AxisError "axis 0 is out of bounds for array of dimension 0")
  | _, [] | _, [_] => Raise (AxisError "axis 1 is out of bounds for array of dimension 1")
  | [r; c], [r2; c2] =>
      if decide (r = r2 /\ c = c2) then
        let sort_order_lat := argsort0 r c (nd_flat lat) in
        let sort_order_lon := argsort1 c lonw in
        let* ordered_data :=
          match data with
          | None => Ok None
          | Some dv =>
              let* dv' := fancy_trailing r c dv sort_order_lat sort_order_lon in
              Ok (Some dv')
          end in
        let* ordered_lat := fancy_block r c r c (nd_flat lat) sort_order_lat sort_order_lon in
        let* ordered_lon := fancy_block r c r c lonw sort_order_lat sort_order_lon in
        Ok (mk_nd [r; c] ordered_lat, mk_nd [r; c] ordered_lon, ordered_data)
      else Raise (IndexError "shape mismatch: indexing arrays could not be broadcast together")
  | _, _ => Raise (IndexError "shape mismatch: indexing arrays could not be broadcast together")
  end.

End Normalize2.

(** ** Data arrays, box slicing and nearest points *)

Section Ops.
Context {F : Type} `{Scalar F}.

Abbreviation gdict := (gmap string (pyval F)).

(** The [data] argument: a numpy array or an [xarray.DataArray] (whose
    [.values] is the numpy array). *)
Inductive pydata :=
  | NpArray (a : ndarray F)
  | XrDataArray (a : ndarray F).

Definition values (d : pydata) : ndarray F :=
  match d with NpArray a | XrDataArray a => a end.

Definition np_min2 (a b : F) : F :=
  if s_isnan a then a else if s_isnan b then b else if s_ltb b a then b else a.

Definition np_max2 (a b : F) : F :=
  if s_isnan a then a else if s_isnan b then b else if s_ltb a b then b else a.

Definition in_bounds (a b : F) (v : F) : bool :=
  s_leb (np_min2 a b) v && s_leb v (np_max2 a b).

(** Keep the entries whose mask entry is true. *)
Definition mask_select {A} (m : list bool) (l : list A) : list A :=
  fmap snd (filter (fun p : bool * A => p.1 = true) (zip m l)).

(** [data[..., mask, :]] and [data[..., mask]]: boolean masks on the second
    last and on the last axis. *)
Definition mask_axis_m2 (m : list bool) (a : ndarray F) : res (ndarray F) :=
  match reverse (nd_shape a) with
  | c :: r :: rlead =>
      if decide (length m = r) then
        let nb := length (nd_flat a) / (r * c) in
        Ok (mk_nd (reverse rlead ++ [length (filter (fun b => b = true) m); c])
              (seq 0 nb ≫= fun b =>
                 mjoin (mask_select m (map (fun i => take c (drop ((b * r + i) * c) (nd_flat a)))
                                             (seq 0 r)))))
      else Raise (IndexError "boolean index did not match indexed array")
  | _ => Raise (IndexError "too many indices for array")
  end.

Definition mask_axis_m1 (m : list bool) (a : ndarray F) : res (ndarray F) :=
  match reverse (nd_shape a) with
  | c :: rlead =>
      if decide (length m = c) then
        Ok (mk_nd (reverse rlead ++ [length (filter (fun b => b = true) m)])
              (rows_of_all c (nd_flat a) ≫= mask_select m))
      else Raise (IndexError "boolean index did not match indexed array")
  | _ => Raise (IndexError "too many indices for array")
  end.

End Ops.
Arguments pydata F : clear implicits.

Section Boxes.
Context {F : Type} `{Scalar F}.

Abbreviation gdict := (gmap string (pyval F)).

Definition box_lengths_error : pyexc :=
  ValueError "The latitude-longitude box doesn't have a length of 4".

(** [Grid._structured_box(data, ll_box)]; returns the sliced data and the
    new descriptor. *)
Definition structured_box (d : gdict) (data : ndarray F) (ll_box : list F)
  : res (ndarray F * gdict) :=
  let* dims := construct_dim d in
  let (calc_lat, calc_lon) := dims in
  match ll_box with
  | [w; n; e; s] =>
      let lat_bound := map (in_bounds n s) calc_lat in
      let lon_bound := map (in_bounds w e) calc_lon in
      let* rows_sliced := mask_axis_m2 lat_bound data in
      let* sliced_data := mask_axis_m1 lon_bound rows_sliced in
      let lat_vals := mask_select lat_bound calc_lat in
      let lon_vals := mask_select lon_bound calc_lon in
      let new_grid_dict :=
        delete "xinc" (delete "xfirst" (delete "yinc" (delete "yfirst"
          (<["xvals" := PyFloats lon_vals]> (<["yvals" := PyFloats lat_vals]>
          (<["xsize" := PyInt (Z.of_nat (length lon_vals))]>
          (<["ysize" := PyInt (Z.of_nat (length lat_vals))]> d))))))) in
      Ok (sliced_data, new_grid_dict)
  | _ => Raise box_lengths_error
  end.

Definition unstructured_defaults (n : nat) (lat_vals lon_vals : list F) : gdict :=
  list_to_map [("gridtype", PyStr "unstructured"); ("xlongname", PyStr "longitude");
               ("xname", PyStr "lon"); ("xunits", PyStr "degrees");
               ("ylongname", PyStr "latitude"); ("yname", PyStr "lat");
               ("yunits", PyStr "degrees"); ("gridsize", PyInt (Z.of_nat n));
               ("yvals", PyFloats lat_vals); ("xvals", PyFloats lon_vals)].

(** [data[..., bound]] for a boolean [bound] of the shape of the last
    [k] axes (here given flat, of length [size]). *)
Definition mask_trailing (k size : nat) (bound : list bool) (a : ndarray F)
  : ndarray F :=
  let lead := take (length (nd_shape a) - k) (nd_shape a) in
  mk_nd (lead ++ [length (filter (fun b => b = true) bound)])
        (rows_of_all size (nd_flat a) ≫= mask_select bound).

Definition shape_error : pyexc :=
  ValueError "The last dimension(s) of the data needs the same shape as the coordinates of this grid!".

Definition empty_box_error : pyexc :=
  ValueError "Only an empty array remains, please choose another longitude-latitude box!".

(** [Grid._unstructured_box(data, ll_box)] *)
Definition unstructured_box (g : grid F) (data : ndarray F) (ll_box : list F)
  : res (ndarray F * gdict) :=
  let* ll := calc_lat_lon g in
  let (calc_lat, calc_lon) := ll in
  if decide (last_dims (len_coords g) (nd_shape data) <> nd_shape calc_lat)
  then Raise shape_error else
  match ll_box with
  | [w; n; e; s] =>
      let bound := zip_with (fun la lo => in_bounds n s la && in_bounds w e lo)
                            (nd_flat calc_lat) (nd_flat calc_lon) in
      if decide (length (filter (fun b => b = true) bound) = 0%nat)
      then Raise empty_box_error else
      let sliced_data := mask_trailing (len_coords g) (length bound) bound data in
      let lat_vals := mask_select bound (nd_flat calc_lat) in
      let lon_vals := mask_select bound (nd_flat calc_lon) in
      Ok (sliced_data, unstructured_defaults (length lat_vals) lat_vals lon_vals)
  | _ => Raise box_lengths_error
  end.

(** Modelled from the spec: [GridBuilder(grid_dict).build_grid()] (the
    builder is not part of the sources): it dispatches on [gridtype] to
    the grid classes and fails on an unknown or missing type. *)
Definition build_grid (d : gdict) : res (grid F) :=
  match d !! "gridtype" with
  | Some (PyStr t) =>
      if String.eqb t "lonlat" || String.eqb t "regular" then Ok (new_LonLatGrid d)
      else if String.eqb t "curvilinear" then Ok (new_CurvilinearGrid d)
      else if String.eqb t "unstructured" then Ok (UnstructuredGrid d)
      else Raise (ValueError "unknown grid type")
  | _ => Raise (ValueError "unknown grid type")
  end.

Definition with_values (data : pydata F) (a : ndarray F) : pydata F :=
  match data with NpArray _ => NpArray a | XrDataArray _ => XrDataArray a end.

(** [Grid._lonlatbox(data, ll_box, unstructured)] *)
Definition lonlatbox_impl (g : grid F) (data : pydata F) (ll_box : list F)
  (unstructured : bool) : res (pydata F * grid F) :=
  let data_values := values data in
  let* ll := calc_lat_lon g in
  if decide (last_dims (len_coords g) (nd_shape data_values) <> nd_shape ll.1)
  then Raise (ValueError "The last two dimension of the data needs the same shape as the coordinates of this grid!") else
  let* sd := if unstructured then unstructured_box g data_values ll_box
             else structured_box (grid_dict g) data_values ll_box in
  let* sliced_grid := build_grid sd.2 in
  Ok (with_values data sd.1, sliced_grid).

(** What a [lonlatbox] call returns: Python's [None] or the pair. *)
Inductive box_ret :=
  | BoxNone
  | BoxSliced (sliced_data : pydata F) (sliced_grid : grid F).

(** [lonlatbox] as each class resolves it: [LonLatGrid] does not define
    it, so [Grid.lonlatbox] runs (its body is [pass]: [abc.abstractmethod]
    has no effect on a class that is not an [ABCMeta]), and returns
    [None]; [CurvilinearGrid.lonlatbox] slices with [unstructured=True].
    Modelled from the spec: [UnstructuredGrid.lonlatbox] (not in the
    sources) masks points like the curvilinear grid. *)
Definition lonlatbox (g : grid F) (data : pydata F) (ll_box : list F) : res box_ret :=
  match g with
  | LonLatGrid _ => Ok BoxNone
  | CurvilinearGrid _ | UnstructuredGrid _ =>
      let* r := lonlatbox_impl g data ll_box true in
      Ok (BoxSliced r.1 r.2)
  end.

End Boxes.
Arguments box_ret F : clear implicits.

(** ** [Grid.interpolate] *)

Section Interpolate.
Context {F : Type} `{Scalar F}.

Inductive interp_method := Nearest | Bilinear | Cubic.

(** One call of [mpl_toolkits.basemap.interp] (a library outside the
    repository): the numerical result is kept as the call itself, with
    the method the library selects from [order]. *)
Record interp_out := mk_interp_out {
  io_method : interp_method;
  io_datain : ndarray F;
  io_xin : list F;
  io_yin : list F;
  io_xout : ndarray F;
  io_yout : ndarray F }.

(** [basemap.interp(datain, xin, yin, xout, yout, order=order)]: its
    argument checks ([xin]/[yin] increasing, [xout]/[yout] of one shape)
    and its dispatch on [order] (0 nearest, 1 bilinear, 3 cubic spline,
    anything else [ValueError]). *)
Definition order_error : pyexc := ValueError "order keyword must be 0, 1 or 3".

Definition basemap_interp (datain : ndarray F) (xin yin : list F)
  (xout yout : ndarray F) (order : Z) : res interp_out :=
  let last l := default s_zero (last l) in
  let first l := default s_zero (head l) in
  if s_ltb (s_sub (last xin) (first xin)) s_zero
     || s_ltb (s_sub (last yin) (first yin)) s_zero
  then Raise (ValueError "xin and yin must be increasing!") else
  if decide (nd_shape xout <> nd_shape yout)
  then Raise (ValueError "xout and yout must have same shape!") else
  if (order =? 1)%Z then Ok (mk_interp_out Bilinear datain xin yin xout yout)
  else if (order =? 0)%Z then Ok (mk_interp_out Nearest datain xin yin xout yout)
  else if (order =? 3)%Z then Ok (mk_interp_out Cubic datain xin yin xout yout)
  else Raise order_error.

(** The remapped array: its shape and the interpolation of each slice. *)
Record remapped := mk_remapped {
  rm_is_xr : bool;
  rm_shape : list nat;
  rm_slices : list interp_out }.

Definition transpose2 (r c : nat) (blk : list F) : ndarray F :=
  mk_nd [c; r] (seq 0 c ≫= fun j => omap (fun i => blk !! (i * c + j)%nat) (seq 0 r)).

(** [Grid._interpolate_structured(data, src_lat, src_lon, trg_lat, trg_lon,
    order)] with [src_lat[:, 0]] and [src_lon[0, :]] already taken. *)
Definition interpolate_structured (data : ndarray F) (xin yin : list F)
  (trg_lat trg_lon : ndarray F) (order : Z) : res (list nat * list interp_out) :=
  match reverse (nd_shape data), reverse (nd_shape trg_lat) with
  | c :: r :: rlead, tc :: tr :: _ =>
      if decide (r * c = 0)%nat then Raise (ValueError "cannot reshape array") else
      let nb := length (nd_flat data) / (r * c) in
      let* outs := res_mapM (fun b =>
                    basemap_interp (transpose2 r c (take (r * c) (drop (b * (r * c)) (nd_flat data))))
                                   xin yin trg_lat trg_lon order)
                  (seq 0 nb) in
      Ok (reverse rlead ++ [tr; tc], outs)
  | _, _ => Raise (IndexError "tuple index out of range")
  end.

(** [Grid._interpolate_unstructured]: the method is ['linear'] for order 1
    and ['nearest'] otherwise; the coordinates, flattened with [ravel()],
    are then joined with [np.concatenate(..., axis=1)], which numpy refuses
    for 1-D arrays. *)
Definition unstructured_method (order : Z) : string :=
  if (order =? 1)%Z then "linear" else "nearest".

Definition interpolate_unstructured (data : ndarray F) (src_lat : ndarray F)
  (order : Z) : res (list nat * list interp_out) :=
  let method := unstructured_method order in
  let size := length (nd_flat src_lat) in
  if decide (size = 0%nat \/ length (nd_flat data) mod size <> 0%nat)
  then Raise (ValueError "cannot reshape array")
  else Raise (AxisError "axis 1 is out of bounds for array of dimension 1").

(** The error [str.format] raises for a field [{0:d}] with no argument. *)
Definition format_index_error : pyexc :=
  IndexError "Replacement index 0 out of range for positional args tuple".

(** [Grid.interpolate(data, other_grid, order)].  The error message of the
    shape test is built with ['...{0:d}...'.format()], which has no
    argument for its field: [str.format] raises [IndexError] there. *)
Definition interpolate (g : grid F) (data : pydata F) (other : grid F) (order : Z)
  : res remapped :=
  let data_values := values data in
  let* src := calc_lat_lon g in
  if decide (last_dims (len_coords g) (nd_shape data_values) <> nd_shape src.1)
  then Raise format_index_error else
  let* ns := normalize_lat_lon src.1 src.2 (Some data_values) in
  let '(src_lat, src_lon, odata) := ns in
  let data_values := default data_values odata in
  let* trg := calc_lat_lon other in
  let* nt := normalize_lat_lon trg.1 trg.2 None in
  let '(trg_lat, trg_lon, _) := nt in
  let* out :=
    if decide (Nat.min (len_coords g) (len_coords other) = 1%nat) then
      interpolate_unstructured data_values src_lat order
    else
      match nd_shape src_lat with
      | [r; c] =>
          interpolate_structured data_values
            (col_of r c (nd_flat src_lat) 0) (row_of c (nd_flat src_lon) 0)
            trg_lat trg_lon order
      | _ => Raise (IndexError "too many indices for array")
      end in
  Ok (mk_remapped (match data with XrDataArray _ => true | _ => false end) out.1 out.2).

End Interpolate.

(** ** Nearest grid point *)

Section Nearest.
Context {F : Type} `{Scalar F}.
(** numpy's elementwise [np.sin], [np.cos], [np.arcsin] and [np.sqrt]. *)
Variables np_sin np_cos np_arcsin np_sqrt : F -> F.

Definition deg2rad (x : F) : F := s_mul x (s_div s_pi (s_of_Z 180%Z)).

Definition sq (x : F) : F := s_mul x x.

(** [distance_haversine(p1, p2)] for one point [p1] and one point [p2]
    (the function is applied elementwise over the grid points). *)
Definition distance_haversine (p1 p2 : F * F) : F :=
  let R := s_of_Z 6371000%Z in
  let lat1 := deg2rad p1.1 in
  let lon1 := deg2rad p1.2 in
  let lat2 := deg2rad p2.1 in
  let lon2 := deg2rad p2.2 in
  let dlon := s_sub lon2 lon1 in
  let dlat := s_sub lat2 lat1 in
  let two := s_of_Z 2%Z in
  let a := s_add (sq (np_sin (s_div dlat two)))
                 (s_mul (s_mul (np_cos lat1) (np_cos lat2)) (sq (np_sin (s_div dlon two)))) in
  let c := s_mul two (np_arcsin (np_sqrt a)) in
  s_mul R c.

(** [ndarray.argmin()]: the first nan if there is one, else the first
    smallest entry. *)
Fixpoint argmin_from (i best : nat) (mp : F) (l : list F) : nat :=
  match l with
  | [] => best
  | x :: t =>
      if s_isnan x then i
      else if s_ltb x mp then argmin_from (S i) i x t
      else argmin_from (S i) best mp t
  end.

Definition argmin (l : list F) : nat :=
  match l with
  | [] => O
  | x :: t => if s_isnan x then O else argmin_from 1 0 x t
  end.

(** [np.unravel_index(k, shape)] *)
Definition unravel_index (k : nat) (shape : list nat) : list nat :=
  match shape with
  | [_; c] => [k / c; k mod c]
  | _ => [k]
  end.

(** [Grid.nearest_point(coord)] *)
Definition nearest_point (g : grid F) (coord : F * F) : res (list nat) :=
  let* ll := calc_lat_lon g in
  let calc_distance := zip_with (fun la lo => distance_haversine coord (la, lo))
                                (nd_flat ll.1) (nd_flat ll.2) in
  Ok (unravel_index (argmin calc_distance) (nd_shape ll.1)).

(** [data[..., i, j]] (or [data[..., k]]): the entry at the given position
    of every trailing block; with the [...] numpy returns an array, of
    shape the leading axes. *)
Definition index_trailing (data : ndarray F) (ind : list nat) (trailing : list nat)
  : ndarray F :=
  let blk := foldr Nat.mul 1%nat trailing in
  let off := match ind, trailing with
             | [i; j], [_; c] => (i * c + j)%nat
             | [k], _ => k
             | _, _ => O
             end in
  mk_nd (take (length (nd_shape data) - length trailing) (nd_shape data))
        (omap (fun b => nd_flat data !! (b * blk + off)%nat)
              (seq 0 (length (nd_flat data) / blk))).

(** [np.atleast_1d] *)
Definition atleast_1d (a : ndarray F) : ndarray F :=
  match nd_shape a with
  | [] => mk_nd [1%nat] (nd_flat a)
  | _ => a
  end.

(** [Grid.get_nearest_point(data, coord)]: only a numpy result goes
    through [np.atleast_1d]. *)
Definition get_nearest_point (g : grid F) (data : pydata F) (coord : F * F)
  : res (pydata F) :=
  let* ll := calc_lat_lon g in
  if decide (last_dims (len_coords g) (nd_shape (values data)) <> nd_shape ll.1)
  then Raise (ValueError "The last two dimension of the data needs the same shape as the coordinates of this grid!") else
  let* nearest_ind := nearest_point g coord in
  let nearest_data := index_trailing (values data) nearest_ind (nd_shape ll.1) in
  match data with
  | NpArray _ => Ok (NpArray (atleast_1d nearest_data))
  | XrDataArray _ => Ok (XrDataArray nearest_data)
  end.

End Nearest.

(** ** Vocabulary of the properties *)













(** ** Members of [Grid] *)

Section GridMembers.
Context {F : Type} `{Scalar F}.

(** [Grid.shape] of a grid whose axes [LonLatGrid._construct_dim] builds. *)
Definition grid_shape (d : gmap string (pyval F)) : res (list nat) :=
  let* dims := construct_dim d in
  Ok [length dims.1; length dims.2].

(** [np.array((lat, lon))]: two arrays of one shape are stacked on a new
    first axis; numpy refuses arrays of different shapes. *)
Definition stack2 (a b : ndarray F) : res (ndarray F) :=
  if decide (nd_shape a = nd_shape b)
  then Ok (mk_nd (2%nat :: nd_shape a) (nd_flat a ++ nd_flat b))
  else Raise (ValueError "setting an array element with a sequence. The requested array has an inhomogeneous shape").

(** [np.array_equal(a1, a2)]: same shape and [(a1 == a2).all()]. *)
Definition array_equal (a b : ndarray F) : bool :=
  bool_decide (nd_shape a = nd_shape b) &&
  forallb (fun p => s_eqb p.1 p.2) (zip (nd_flat a) (nd_flat b)).

(** The right operand of [==]: a grid, or an object without [raw_lat_lon]. *)
Inductive eq_operand :=
  | EqGrid (g : grid F)
  | EqOther.

(** [Grid.__eq__(self, other)]: only the [AttributeError] of an [other]
    without [raw_lat_lon] is turned into [False]. *)
Definition grid_eq (g : grid F) (other : eq_operand) : res bool :=
  let* l := calc_lat_lon g in
  let* left' := stack2 l.1 l.2 in
  match other with
  | EqOther => Ok false
  | EqGrid o =>
      let* r := calc_lat_lon o in
      let* right' := stack2 r.1 r.2 in
      Ok (array_equal left' right')
  end.

End GridMembers.

(** ** Concrete grids and arrays used below *)

Module Scenarios.
Open Scope float_scope.

(** A regular grid with axes lat = [50; 51; 52] and lon = [10; 10.5; 11]. *)
Definition reg_dict : gmap string (pyval float) :=
  list_to_map [("yfirst", PyFloat 50); ("yinc", PyFloat 1); ("ysize", PyInt 3%Z);
               ("xfirst", PyFloat 10); ("xinc", PyFloat 0.5); ("xsize", PyInt 3%Z)].

Definition reg_grid : grid float := new_LonLatGrid reg_dict.

(** The same points as a curvilinear grid. *)
Definition curv_grid : grid float :=
  new_CurvilinearGrid
    (<["yvals" := PyFloats [50; 50; 50; 51; 51; 51; 52; 52; 52]]>
     (<["xvals" := PyFloats [10; 10.5; 11; 10; 10.5; 11; 10; 10.5; 11]]> reg_dict)).

Definition data33 : ndarray float := mk_nd [3; 3]%nat [1; 2; 3; 4; 5; 6; 7; 8; 9].

(** Data whose grid axes (2 by 3) do not match the 3 by 3 grid. *)
Definition data23 : ndarray float := mk_nd [2; 3]%nat [1; 2; 3; 4; 5; 6].

(** The lat/lon field of [reg_grid]. *)
Definition reg_lat : ndarray float := mesh_lat [50; 51; 52] 3.
Definition reg_lon : ndarray float := mesh_lon 3 [10; 10.5; 11].

Definition box_all : list float := [10; 52; 11; 50].
Definition box_four : list float := [10; 51; 10.5; 50].
Definition box_outside : list float := [100; -10; 110; -20].

(** [{yfirst: 0, yinc: 0.1, ysize: 3, xfirst: 0, xinc: 1, xsize: 1}] *)
Definition tenth_dict : gmap string (pyval float) :=
  list_to_map [("yfirst", PyFloat 0); ("yinc", PyFloat 0.1); ("ysize", PyInt 3%Z);
               ("xfirst", PyFloat 0); ("xinc", PyFloat 1); ("xsize", PyInt 1%Z)].

(** The example of the spec: [{yfirst:50, yinc:1, ysize:3, xfirst:10,
    xinc:1, xsize:2}]. *)
Definition spec_dict : gmap string (pyval float) :=
  list_to_map [("yfirst", PyFloat 50); ("yinc", PyFloat 1); ("ysize", PyInt 3%Z);
               ("xfirst", PyFloat 10); ("xinc", PyFloat 1); ("xsize", PyInt 2%Z)].


End Scenarios.

Module QScenarios.
Open Scope Q_scope.



End QScenarios.

(** * Properties *)

Import Scenarios.

(** ** Box slicing *)

(** C1: on a regular grid, a box that excludes every point raises no
    error: [LonLatGrid] has no [lonlatbox] of its own, so the call returns
    [None]; and the structured slice [_structured_box] has no emptiness
    test (unlike [_unstructured_box]): it returns a 0 by 0 slice and a
    descriptor with [ysize = 0]. *)
Theorem lonlatbox_regular_outside_box_no_error :
  lonlatbox reg_grid (NpArray data33) box_outside = Ok BoxNone /\
  (exists sliced d',
     structured_box (grid_dict reg_grid) data33 box_outside = Ok (sliced, d') /\
     nd_shape sliced = [0; 0]%nat /\ d' !! "ysize" = Some (PyInt 0%Z)).
Proof.
  split; [vm_compute; reflexivity|].
  eexists _, _; split; [vm_compute; reflexivity|].
  split; vm_compute; reflexivity.
Qed.

(** The curvilinear path does raise on the same box. *)
Example lonlatbox_curvilinear_outside_box :
  lonlatbox curv_grid (NpArray data33) box_outside = Raise empty_box_error.
Proof. vm_compute. reflexivity. Qed.

(** C3: on a regular grid there is no descriptor to rebuild from
    ([lonlatbox] returns [None]); the descriptor of [_structured_box]
    keeps [gridtype = 'lonlat'] but drops [yfirst]/[yinc]/[xfirst]/[xinc],
    and a [LonLatGrid] built from it cannot compute its lat/lon field. *)
Theorem lonlatbox_regular_roundtrip_fails :
  lonlatbox reg_grid (NpArray data33) box_four = Ok BoxNone /\
  (exists sliced d',
     structured_box (grid_dict reg_grid) data33 box_four = Ok (sliced, d') /\
     d' !! "gridtype" = Some (PyStr "lonlat") /\
     calc_lat_lon (new_LonLatGrid d') = Raise (KeyError "yfirst")).
Proof.
  split; [vm_compute; reflexivity|].
  eexists _, _; split; [vm_compute; reflexivity|].
  split; vm_compute; reflexivity.
Qed.

(** On the curvilinear path the rebuilt (unstructured) grid has exactly
    the selected points. *)
Example lonlatbox_curvilinear_roundtrip :
  match lonlatbox curv_grid (NpArray data33) box_four with
  | Ok (BoxSliced _ g) =>
      calc_lat_lon g = Ok (mk_nd [4%nat] [50; 50; 51; 51], mk_nd [4%nat] [10; 10.5; 10; 10.5])
  | _ => False
  end.
Proof. vm_compute. reflexivity. Qed.

(** C9: a valid box on a regular grid gives back no new grid and no new
    data: the call returns [None]. *)
Theorem lonlatbox_regular_returns_none :
  lonlatbox reg_grid (NpArray data33) box_all = Ok BoxNone.
Proof. vm_compute. reflexivity. Qed.

(** ** Shape test of [interpolate] *)

(** C2: when the trailing [len_coords] axes of the data differ from the
    shape of the grid's lat/lon field, [interpolate] stops before any
    remapping, but the error it raises is the [IndexError] of the
    message's [str.format] call, not the intended [ValueError]. *)
Theorem interpolate_shape_mismatch_raises_index_error {F} `{Scalar F}
  (g other : grid F) (data : pydata F) (order : Z) (src : ndarray F * ndarray F) :
  calc_lat_lon g = Ok src ->
  last_dims (len_coords g) (nd_shape (values data)) <> nd_shape src.1 ->
  interpolate g data other order = Raise format_index_error.
Proof.
  intros Hsrc Hneq. unfold interpolate. rewrite Hsrc. simpl.
  rewrite decide_True by exact Hneq. reflexivity.
Qed.

Lemma interpolate_shape_mismatch_raises_index_error_witness :
  calc_lat_lon reg_grid = Ok (reg_lat, reg_lon) /\
  last_dims (len_coords reg_grid) (nd_shape (values (NpArray data23))) <> nd_shape reg_lat /\
  interpolate reg_grid (NpArray data23) reg_grid 0 = Raise format_index_error.
Proof.
  split; [vm_compute; reflexivity|].
  split; [vm_compute; discriminate|].
  apply (interpolate_shape_mismatch_raises_index_error reg_grid reg_grid
           (NpArray data23) 0 (reg_lat, reg_lon));
    [vm_compute; reflexivity | vm_compute; discriminate].
Defined.

(** ** Lat/lon field of a regular grid *)

(** C4: [np.arange(start, start + steps * width, width)] does not always
    yield [size] values: with [yfirst = 0], [yinc = 0.1], [ysize = 3] the
    stop [3 * 0.1 = 0.30000000000000004] lies above the third value and
    the latitude axis has 4 entries. *)
Theorem calc_lat_lon_tenth_grid_extra_row :
  exists lat lon,
    calc_lat_lon (new_LonLatGrid tenth_dict) = Ok (lat, lon) /\
    nd_shape lat = [4; 1]%nat.
Proof.
  eexists _, _. split; [vm_compute; reflexivity | vm_compute; reflexivity].
Qed.

(** The example of the spec itself comes out as stated. *)
Example calc_lat_lon_spec_example :
  calc_lat_lon (new_LonLatGrid spec_dict) =
    Ok (mesh_lat [50; 51; 52]%float 2, mesh_lon 3 [10; 11]%float).
Proof. vm_compute. reflexivity. Qed.

(** ** Nearest point *)

(** C10: for an [xarray.DataArray] whose only axes are the grid axes, the
    value at the nearest point is returned with no axis at all (shape
    [()]): only numpy results go through [np.atleast_1d].  This holds
    whatever the trigonometric functions compute. *)
Theorem get_nearest_point_xarray_zero_dim (np_sin np_cos np_arcsin np_sqrt : float -> float) :
  exists v,
    get_nearest_point np_sin np_cos np_arcsin np_sqrt reg_grid
      (XrDataArray data33) (51, 10)%float = Ok (XrDataArray v) /\
    nd_shape v = [].
Proof.
  unfold get_nearest_point, nearest_point.
  assert (Hll : calc_lat_lon reg_grid = Ok (reg_lat, reg_lon)) by (vm_compute; reflexivity).
  rewrite Hll. cbn -[argmin distance_haversine]. eexists. split; reflexivity.
Qed.

(** For a numpy array the same call gives one axis of length 1. *)
Example get_nearest_point_numpy_one_dim (np_sin np_cos np_arcsin np_sqrt : float -> float) :
  exists v,
    get_nearest_point np_sin np_cos np_arcsin np_sqrt reg_grid
      (NpArray data33) (51, 10)%float = Ok (NpArray v) /\
    nd_shape v = [1%nat].
Proof.
  unfold get_nearest_point, nearest_point.
  assert (Hll : calc_lat_lon reg_grid = Ok (reg_lat, reg_lon)) by (vm_compute; reflexivity).
  rewrite Hll. cbn -[argmin distance_haversine]. eexists. split; reflexivity.
Qed.

(** ** Interpolation order *)


(** ** Normalisation *)


(** ** Structured box *)

Section BoxLemmas.
Context {F : Type} `{Scalar F}.

Lemma mask_select_map {A} (f : A -> bool) (l : list A) :
  mask_select (map f l) l = filter (fun y => f y = true) l.
Proof.
  unfold mask_select. induction l as [|x l IH]; [done|].
  simpl. rewrite !filter_cons. simpl. destruct (f x) eqn:Hf; simpl.
  - f_equal. exact IH.
  - exact IH.
Qed.

Lemma count_true_map {A} (f : A -> bool) (l : list A) :
  length (filter (fun b => b = true) (map f l)) = length (filter (fun y => f y = true) l).
Proof.
  induction l as [|x l IH]; [done|].
  simpl. rewrite !filter_cons. destruct (f x); simpl.
  - simpl. by rewrite IH.
  - exact IH.
Qed.

(** The descriptor and the shape [_structured_box] returns, for a
    descriptor whose axes [_construct_dim] computes. *)
Lemma structured_box_descriptor (d : gmap string (pyval F)) (data : ndarray F)
  (w n e s : F) (ys xs : list F) (lead : list nat) :
  construct_dim d = Ok (ys, xs) ->
  nd_shape data = lead ++ [length ys; length xs] ->
  exists sliced d',
    structured_box d data [w; n; e; s] = Ok (sliced, d') /\
    let lat_vals := filter (fun y => in_bounds n s y = true) ys in
    let lon_vals := filter (fun x => in_bounds w e x = true) xs in
    nd_shape sliced = lead ++ [length lat_vals; length lon_vals] /\
    d' !! "yvals" = Some (PyFloats lat_vals) /\
    d' !! "xvals" = Some (PyFloats lon_vals) /\
    d' !! "ysize" = Some (PyInt (Z.of_nat (length lat_vals))) /\
    d' !! "xsize" = Some (PyInt (Z.of_nat (length lon_vals))) /\
    d' !! "yfirst" = None /\ d' !! "yinc" = None /\
    d' !! "xfirst" = None /\ d' !! "xinc" = None /\
    (forall k, k ∉ ["yvals"; "xvals"; "ysize"; "xsize"; "yfirst"; "yinc"; "xfirst"; "xinc"] ->
       d' !! k = d !! k).
Proof.
  intros Hdim Hshape.
  unfold structured_box. rewrite Hdim. simpl.
  unfold mask_axis_m2. rewrite Hshape, reverse_app. simpl.
  rewrite decide_True by (by rewrite length_map).
  unfold mask_axis_m1. simpl. rewrite reverse_app, reverse_involutive. simpl.
  rewrite decide_True by (by rewrite length_map).
  simpl. rewrite !mask_select_map.
  eexists _, _. split; [reflexivity|].
  simpl. rewrite !count_true_map, reverse_cons, reverse_involutive, <- app_assoc.
  split; [done|].
  repeat split.
  - rewrite !lookup_delete_ne by done. rewrite lookup_insert_ne by done. by rewrite lookup_insert.
  - rewrite !lookup_delete_ne by done. by rewrite lookup_insert.
  - rewrite !lookup_delete_ne by done. rewrite !lookup_insert_ne by done. by rewrite lookup_insert.
  - rewrite !lookup_delete_ne by done. rewrite !lookup_insert_ne by done. by rewrite lookup_insert.
  - rewrite !lookup_delete_ne by done. by rewrite lookup_delete.
  - rewrite !lookup_delete_ne by done. by rewrite lookup_delete.
  - rewrite !lookup_delete_ne by done. by rewrite lookup_delete.
  - by rewrite lookup_delete.
  - intros k Hk. rewrite !elem_of_cons in Hk.
    rewrite !lookup_delete_ne by naive_solver.
    rewrite !lookup_insert_ne by naive_solver. done.
Qed.
End BoxLemmas.


(** C8: [_structured_box] keeps the latitudes and the longitudes that lie
    in the box, bounds included ([in_bounds]), each axis filtered on its
    own; the new descriptor holds them as [yvals]/[xvals] with the new
    sizes and no [yfirst]/[yinc]/[xfirst]/[xinc], other keys unchanged.
    On the 3 by 3 grid with lat = [50, 51, 52] and lon = [10, 10.5, 11]
    the box (10, 52, 11, 50) keeps all 9 points and (10, 51, 10.5, 50)
    keeps the 4 points with lat in {50, 51} and lon in {10, 10.5}. *)
Theorem structured_box_filters_axes :
  (forall (F : Type) (SF : Scalar F) (d : gmap string (pyval F)) (data : ndarray F)
     (w n e s : F) (ys xs : list F) (lead : list nat),
   construct_dim d = Ok (ys, xs) ->
   nd_shape data = lead ++ [length ys; length xs] ->
   exists sliced d',
     structured_box d data [w; n; e; s] = Ok (sliced, d') /\
     let lat_vals := filter (fun y => in_bounds n s y = true) ys in
     let lon_vals := filter (fun x => in_bounds w e x = true) xs in
     nd_shape sliced = lead ++ [length lat_vals; length lon_vals] /\
     d' !! "yvals" = Some (PyFloats lat_vals) /\
     d' !! "xvals" = Some (PyFloats lon_vals) /\
     d' !! "ysize" = Some (PyInt (Z.of_nat (length lat_vals))) /\
     d' !! "xsize" = Some (PyInt (Z.of_nat (length lon_vals))) /\
     d' !! "yfirst" = None /\ d' !! "yinc" = None /\
     d' !! "xfirst" = None /\ d' !! "xinc" = None /\
     (forall k, k ∉ ["yvals"; "xvals"; "ysize"; "xsize"; "yfirst"; "yinc"; "xfirst"; "xinc"] ->
        d' !! k = d !! k)) /\
  (exists d',
     structured_box (grid_dict reg_grid) data33 box_all = Ok (data33, d') /\
     d' !! "yvals" = Some (PyFloats [50; 51; 52]%float) /\
     d' !! "xvals" = Some (PyFloats [10; 10.5; 11]%float)) /\
  (exists d',
     structured_box (grid_dict reg_grid) data33 box_four =
       Ok (mk_nd [2; 2]%nat [1; 2; 4; 5]%float, d') /\
     d' !! "yvals" = Some (PyFloats [50; 51]%float) /\
     d' !! "xvals" = Some (PyFloats [10; 10.5]%float)).
Proof.
  split; [intros; by apply structured_box_descriptor|].
  split; eexists; (split; [vm_compute; reflexivity|]); split; vm_compute; reflexivity.
Qed.

Lemma structured_box_filters_axes_witness :
  construct_dim reg_dict = Ok ([50; 51; 52]%float, [10; 10.5; 11]%float) /\
  exists sliced d',
    structured_box reg_dict data33 box_four = Ok (sliced, d') /\
    nd_shape sliced = [2; 2]%nat.
Proof.
  split; [vm_compute; reflexivity|].
  destruct (proj1 structured_box_filters_axes float _ reg_dict data33 10 51 10.5 50
              [50; 51; 52] [10; 10.5; 11] [])%float
    as (sliced & d' & Hbox & Hshape & _);
    [vm_compute; reflexivity | vm_compute; reflexivity |].
  exists sliced, d'. split; [exact Hbox|].
  rewrite Hshape. vm_compute. reflexivity.
Defined.

Section OrderLemmas.
Context {F : Type} `{Scalar F}.








End OrderLemmas.




(** ** Normalisation of a regular mesh, in exact arithmetic *)

Section WrapQ.



Local Open Scope Q_scope.
















End WrapQ.
Section Argsort.
Context {F : Type} `{Scalar F}.






End Argsort.


Section Pick.
Context {A : Type}.





End Pick.


Section ArgsortQ.
Local Open Scope Q_scope.


Lemma s_ltb_Q_false (x y : Q) : s_ltb x y = false -> y <= x.
Proof.
  cbn. rewrite negb_false_iff. apply Qle_bool_iff.
Qed.














End ArgsortQ.

Section Fancy.
Context {F : Type} `{Scalar F}.




End Fancy.

Section Mesh.
Context {F : Type} `{Scalar F}.







End Mesh.



Section Blocks.
Context {A : Type}.






End Blocks.

Section Reorder.
Context {A : Type}.

End Reorder.

Section Trailing.
Context {F : Type} `{Scalar F}.




End Trailing.

Section NormalizeMesh.
Context {F : Type} `{Scalar F}.





End NormalizeMesh.

Section Final.
Local Open Scope Q_scope.





End Final.


(** * Further properties of the grid code *)




Section Exact.
Local Open Scope Q_scope.

End Exact.

Section MemberProps.
Context {F : Type} `{Scalar F}.


Lemma convert_to_deg_length (field : list F) (u : pyval F) (l : list F) :
  convert_to_deg field u = Ok l -> length l = length field.
Proof.
  unfold convert_to_deg. destruct u; try discriminate.
  destruct (str_contains "deg" (str_lower s)); [by intros [= <-]|].
  destruct (str_contains "rad" (str_lower s)); [|discriminate].
  intros [= <-]. apply length_map.
Qed.

Lemma construct_dim_ext (d1 d2 : gmap string (pyval F)) :
  (forall k, k ∈ ["yfirst"; "ysize"; "yinc"; "xfirst"; "xsize"; "xinc"] -> d1 !! k = d2 !! k) ->
  construct_dim d1 = construct_dim d2.
Proof.
  intros Hk. unfold construct_dim, calc_single_dim, getitem. cbn [append].
  rewrite !Hk by set_solver. reflexivity.
Qed.

Lemma mesh_lat_length (ys : list F) (c : nat) :
  length (nd_flat (mesh_lat ys c)) = (length ys * c)%nat.
Proof.
  cbn [nd_flat mesh_lat]. induction ys as [|y ys IH]; [done|].
  rewrite bind_cons, length_app, length_replicate, IH. simpl. lia.
Qed.

Lemma mesh_lon_length (r : nat) (xs : list F) :
  length (nd_flat (mesh_lon r xs)) = (r * length xs)%nat.
Proof.
  cbn [nd_flat mesh_lon]. induction r as [|r IH]; [done|]. simpl. rewrite length_app, IH. lia.
Qed.

(** X3: when the lat/lon field of a LonLat or curvilinear grid is computed,
    [Grid.shape] is the shape of the latitude field, the longitude field
    has the same shape, and both are 2-D with buffers of that size. *)
Theorem calc_lat_lon_shape (g : grid F) (lat lon : ndarray F) :
  (exists d, g = LonLatGrid d \/ g = CurvilinearGrid d) ->
  calc_lat_lon g = Ok (lat, lon) ->
  grid_shape (grid_dict g) = Ok (nd_shape lat) /\ nd_shape lon = nd_shape lat /\
  exists r c, nd_shape lat = [r; c] /\
    length (nd_flat lat) = (r * c)%nat /\ length (nd_flat lon) = (r * c)%nat.
Proof.
  intros [d [-> | ->]]; cbn [calc_lat_lon grid_dict]; unfold grid_shape.
  - destruct (construct_dim d) as [[ys xs]| |]; cbn [bind]; try discriminate.
    cbn [fst snd]. destruct (getitem d "yunits"); cbn [bind]; try discriminate.
    destruct (convert_to_deg ys a) as [ys'| |] eqn:Ey; cbn [bind]; try discriminate.
    destruct (getitem d "xunits"); cbn [bind]; try discriminate.
    destruct (convert_to_deg xs a0) as [xs'| |] eqn:Ex; cbn [bind]; try discriminate.
    intros [= <- <-]. cbn [fst snd].
    apply convert_to_deg_length in Ey, Ex.
    split; [cbn [nd_shape mesh_lat mesh_lon]; by rewrite Ey, Ex|]. split; [done|].
    exists (length ys'), (length xs'). split; [done|].
    by rewrite mesh_lat_length, mesh_lon_length.
  - destruct (construct_dim d) as [[ys xs]| |]; cbn [bind]; try discriminate.
    cbn [fst snd].
    destruct (getitem d "yvals") as [yv| |]; cbn [bind]; try discriminate.
    destruct (reshape2 yv (length ys) (length xs)) as [la| |] eqn:Ela; cbn [bind]; try discriminate.
    destruct (getitem d "xvals") as [xv| |]; cbn [bind]; try discriminate.
    destruct (reshape2 xv (length ys) (length xs)) as [lo| |] eqn:Elo; cbn [bind]; try discriminate.
    intros [= <- <-].
    unfold reshape2 in Ela, Elo.
    destruct yv; try discriminate. destruct xv; try discriminate.
    destruct (decide _) in Ela; try discriminate. destruct (decide _) in Elo; try discriminate.
    injection Ela as <-. injection Elo as <-. cbn [nd_shape nd_flat].
    split; [done|]. split; [done|]. eexists _, _. split; [reflexivity|]. done.
Qed.

(** X4: the lat/lon field of a curvilinear grid does not depend on the
    [yunits] and [xunits] entries of its descriptor. *)
Theorem calc_lat_lon_curvilinear_ignores_units (d : gmap string (pyval F)) (uy ux : pyval F) :
  calc_lat_lon (CurvilinearGrid (<["yunits" := uy]> (<["xunits" := ux]> d))) =
  calc_lat_lon (CurvilinearGrid d).
Proof.
  cbn [calc_lat_lon].
  rewrite (construct_dim_ext _ d).
  - unfold getitem. rewrite !lookup_insert_ne by done. reflexivity.
  - intros k Hk. rewrite !lookup_insert_ne; [done| |]; set_solver.
Qed.

(** X5: a LonLat grid built from a descriptor without units gets the
    default units [degrees], and its lat/lon field is the mesh of its axes,
    unconverted. *)
Theorem calc_lat_lon_lonlat_default_units (d : gmap string (pyval F)) (ys xs : list F) :
  d !! "yunits" = None -> d !! "xunits" = None ->
  construct_dim d = Ok (ys, xs) ->
  calc_lat_lon (new_LonLatGrid d) = Ok (mesh_lat ys (length xs), mesh_lon (length ys) xs).
Proof.
  intros Hy Hx Hd. unfold new_LonLatGrid. cbn [calc_lat_lon].
  rewrite (construct_dim_ext _ d), Hd.
  - cbn [bind]. unfold getitem.
    rewrite !lookup_union, Hy, Hx. reflexivity.
  - intros k Hk. rewrite lookup_union.
    assert (Hn : (lonlat_defaults : gmap string (pyval F)) !! k = None).
    { repeat (apply elem_of_cons in Hk as [->|Hk]; [reflexivity|]). set_solver. }
    rewrite Hn. by destruct (d !! k).
Qed.
End MemberProps.

Section GridEqProps.
Context {F : Type} `{Scalar F}.

Lemma forallb_zip_diag (f : F -> F -> bool) (l : list F) :
  forallb (fun p => f p.1 p.2) (zip l l) = forallb (fun x => f x x) l.
Proof. induction l as [|x l IH]; [done|]. simpl. by rewrite IH. Qed.

(** X6: a grid whose lat/lon field is computed equals itself exactly when
    no latitude or longitude is NaN; compared with an object without
    [raw_lat_lon], it is not equal. *)
Theorem grid_eq_self (g : grid F) (lat lon : ndarray F) :
  calc_lat_lon g = Ok (lat, lon) -> nd_shape lat = nd_shape lon ->
  grid_eq g (EqGrid g) =
    Ok (forallb (fun x => negb (s_isnan x)) (nd_flat lat ++ nd_flat lon)) /\
  grid_eq g EqOther = Ok false.
Proof.
  intros Hg Hs. unfold grid_eq. rewrite Hg. cbn [bind fst snd].
  unfold stack2. rewrite decide_True by done. cbn [bind].
  split; [|done]. f_equal. unfold array_equal. cbn [nd_shape nd_flat].
  rewrite bool_decide_eq_true_2 by done. simpl. rewrite forallb_zip_diag.
  induction (nd_flat lat ++ nd_flat lon) as [|x l IH]; [done|].
  simpl. unfold s_isnan at 1. by rewrite negb_involutive, IH.
Qed.
End GridEqProps.

Section NearestProps.
Context {F : Type} `{Scalar F}.
Variables np_sin np_cos np_arcsin np_sqrt : F -> F.

Lemma argmin_from_lt (i best : nat) (mp : F) (l : list F) :
  (best < i)%nat -> (argmin_from i best mp l < i + length l)%nat.
Proof.
  revert i best mp. induction l as [|x l IH]; intros i best mp Hb; simpl; [lia|].
  destruct (s_isnan x); [lia|].
  destruct (s_ltb x mp).
  - specialize (IH (S i) i x ltac:(lia)). lia.
  - specialize (IH (S i) best mp ltac:(lia)). lia.
Qed.

Lemma argmin_lt (l : list F) : l <> [] -> (argmin l < length l)%nat.
Proof.
  destruct l as [|x l]; [done|]. intros _. simpl.
  destruct (s_isnan x); [lia|]. pose proof (argmin_from_lt 1 0 x l). lia.
Qed.

Lemma length_zip_with_eq {A B C} (f : A -> B -> C) (l1 : list A) (l2 : list B) :
  length l1 = length l2 -> length (zip_with f l1 l2) = length l1.
Proof. intros E. rewrite length_zip_with. lia. Qed.

Lemma nearest_point_lt (g : grid F) (coord : F * F) (lat lon : ndarray F) (r c : nat) :
  calc_lat_lon g = Ok (lat, lon) -> nd_shape lat = [r; c] ->
  length (nd_flat lat) = (r * c)%nat -> length (nd_flat lon) = (r * c)%nat ->
  (0 < r * c)%nat ->
  exists i j, nearest_point np_sin np_cos np_arcsin np_sqrt g coord = Ok [i; j] /\
    (i < r)%nat /\ (j < c)%nat.
Proof.
  intros Hg Hs Hla Hlo Hrc. unfold nearest_point. rewrite Hg. cbn [bind fst snd].
  rewrite Hs. cbn [unravel_index].
  set (l := zip_with _ (nd_flat lat) (nd_flat lon)).
  assert (Hl : length l = (r * c)%nat) by (unfold l; rewrite length_zip_with_eq; lia).
  assert (Ha : (argmin l < r * c)%nat).
  { rewrite <- Hl. apply argmin_lt. intros E. rewrite E in Hl. simpl in Hl. lia. }
  eexists _, _. split; [reflexivity|]. split.
  - apply Nat.Div0.div_lt_upper_bound. lia.
  - apply Nat.mod_upper_bound. lia.
Qed.

(** X7: on a non-empty 2-D grid, [Grid.nearest_point] returns a row and a
    column index inside the grid. *)
Theorem nearest_point_in_grid (g : grid F) (coord : F * F) (lat lon : ndarray F) (r c : nat) :
  calc_lat_lon g = Ok (lat, lon) -> nd_shape lat = [r; c] ->
  length (nd_flat lat) = (r * c)%nat -> length (nd_flat lon) = (r * c)%nat ->
  (0 < r * c)%nat ->
  exists i j, nearest_point np_sin np_cos np_arcsin np_sqrt g coord = Ok [i; j] /\
    (i < r)%nat /\ (j < c)%nat.
Proof. apply nearest_point_lt. Qed.

Lemma omap_some_lookup {A B} (f : A -> option B) (l : list A) :
  (forall x, x ∈ l -> is_Some (f x)) ->
  length (omap f l) = length l /\ forall k, omap f l !! k = l !! k ≫= f.
Proof.
  induction l as [|x l IH]; intros Hs; [split; [done|]; intros k; done|].
  destruct (Hs x ltac:(set_solver)) as [y Hy].
  destruct IH as [IHl IHk]; [intros z Hz; apply Hs; set_solver|].
  assert (E : omap f (x :: l) = y :: omap f l) by (simpl; rewrite Hy; reflexivity).
  rewrite E. split; [simpl; by rewrite IHl|].
  intros [|k]; simpl; [by rewrite Hy|]. apply IHk.
Qed.

(** X8: for a numpy array whose trailing axes match a non-empty 2-D grid,
    [Grid.get_nearest_point] returns the entries at the nearest grid
    point of every leading index, in an array of the leading shape
    (shape [1] when there is none). *)
Theorem get_nearest_point_numpy (g : grid F) (coord : F * F) (lat lon : ndarray F)
  (r c : nat) (d : ndarray F) (lead : list nat) :
  len_coords g = 2%nat ->
  calc_lat_lon g = Ok (lat, lon) -> nd_shape lat = [r; c] ->
  length (nd_flat lat) = (r * c)%nat -> length (nd_flat lon) = (r * c)%nat ->
  (0 < r * c)%nat ->
  nd_shape d = lead ++ [r; c] ->
  length (nd_flat d) = (foldr Nat.mul 1%nat lead * (r * c))%nat ->
  exists i j out,
    nearest_point np_sin np_cos np_arcsin np_sqrt g coord = Ok [i; j] /\
    (i < r)%nat /\ (j < c)%nat /\
    get_nearest_point np_sin np_cos np_arcsin np_sqrt g (NpArray d) coord = Ok (NpArray out) /\
    nd_shape out = match lead with [] => [1%nat] | _ => lead end /\
    length (nd_flat out) = foldr Nat.mul 1%nat lead /\
    forall b, (b < foldr Nat.mul 1%nat lead)%nat ->
      nd_flat out !! b = nd_flat d !! (b * (r * c) + (i * c + j))%nat.
Proof.
  intros Hlc Hg Hs Hla Hlo Hrc Hd Hdl.
  destruct (nearest_point_lt g coord lat lon r c Hg Hs Hla Hlo Hrc) as (i & j & Hn & Hi & Hj).
  set (nb := foldr Nat.mul 1%nat lead) in *.
  assert (Hblk : foldr Nat.mul 1%nat [r; c] = (r * c)%nat) by (simpl; lia).
  assert (Hoff : (i * c + j < r * c)%nat) by nia.
  destruct (omap_some_lookup (fun b => nd_flat d !! (b * (r * c) + (i * c + j))%nat)
              (seq 0 nb)) as [Hol Hok].
  { intros b Hb. apply elem_of_seq in Hb. apply lookup_lt_is_Some_2. rewrite Hdl. nia. }
  exists i, j. eexists. split; [exact Hn|]. split; [done|]. split; [done|].
  split.
  - unfold get_nearest_point. rewrite Hg. cbn [bind fst values].
    rewrite Hlc, Hd, Hs. unfold last_dims.
    rewrite length_app. cbn [length].
    replace (length lead + 2 - 2)%nat with (length lead) by lia.
    rewrite drop_app_length. rewrite decide_False by (intros E; by apply E).
    rewrite Hn. cbn [bind]. reflexivity.
  - unfold index_trailing. cbn [nd_shape nd_flat].
    rewrite Hd, Hblk. rewrite length_app. cbn [length].
    replace (length lead + 2 - 2)%nat with (length lead) by lia.
    rewrite take_app_length. rewrite Hdl, Nat.div_mul by lia. fold nb.
    split; [unfold atleast_1d; cbn [nd_shape]; by destruct lead|].
    split.
    + unfold atleast_1d. cbn [nd_shape]. destruct lead; cbn [nd_flat]; by rewrite Hol, length_seq.
    + intros b Hb. unfold atleast_1d. cbn [nd_shape].
      replace (nd_flat (match lead with [] => _ | _ :: _ => _ end))
        with (omap (fun b => nd_flat d !! (b * (r * c) + (i * c + j))%nat) (seq 0 nb))
        by (by destruct lead).
      rewrite Hok, lookup_seq_lt by done. reflexivity.
Qed.
End NearestProps.

Section Infinity.

Lemma wrap_loop_infinity (fuel : nat) (l : list float) :
  In PrimFloat.infinity l -> wrap_loop fuel l = Diverge.
Proof.
  revert l. induction fuel as [|fuel IH]; intros l Hin.
  all: assert (Hex : existsb gt180 l = true)
         by (apply existsb_exists; exists PrimFloat.infinity; split; [done|vm_compute; reflexivity]).
  all: cbn [wrap_loop]; rewrite Hex; try done.
  all: apply IH. unfold wrap_step. apply in_map_iff.
  exists PrimFloat.infinity. split; [vm_compute; reflexivity|done].
Qed.

(** X9: a longitude of +infinity makes the wrap-around loop of
    [Grid.normalize_lat_lon] run forever. *)
Theorem normalize_lat_lon_infinite_lon_diverges (lat lon : ndarray float)
  (data : option (ndarray float)) :
  In PrimFloat.infinity (nd_flat lon) ->
  (forall fuel, wrap_loop fuel (nd_flat lon) = Diverge) /\
  normalize_lat_lon lat lon data = Diverge.
Proof.
  intros Hin. split; [intros fuel; by apply wrap_loop_infinity|].
  unfold normalize_lat_lon, wrap_lon. by rewrite wrap_loop_infinity.
Qed.
End Infinity.

Section BoxProps.
Context {F : Type} `{Scalar F}.

Lemma mask_select_zip_with_l (f : F -> F -> bool) (l1 l2 : list F) :
  mask_select (zip_with f l1 l2) l1 =
    map fst (filter (fun p => f p.1 p.2 = true) (zip l1 l2)).
Proof.
  unfold mask_select. revert l2. induction l1 as [|x l1 IH]; intros [|y l2]; try done.
  cbn [zip_with zip]. rewrite !filter_cons. simpl.
  destruct (f x y); simpl; [f_equal|]; apply IH.
Qed.

Lemma mask_select_zip_with_r (f : F -> F -> bool) (l1 l2 : list F) :
  mask_select (zip_with f l1 l2) l2 =
    map snd (filter (fun p => f p.1 p.2 = true) (zip l1 l2)).
Proof.
  unfold mask_select. revert l2. induction l1 as [|x l1 IH]; intros [|y l2]; try done.
  cbn [zip_with zip]. rewrite !filter_cons. simpl.
  destruct (f x y); simpl; [f_equal|]; apply IH.
Qed.

Lemma count_zip_with (f : F -> F -> bool) (l1 l2 : list F) :
  length (filter (fun b => b = true) (zip_with f l1 l2)) =
  length (filter (fun p => f p.1 p.2 = true) (zip l1 l2)).
Proof.
  revert l2. induction l1 as [|x l1 IH]; intros [|y l2]; try done.
  cbn [zip_with zip]. rewrite !filter_cons. simpl.
  destruct (f x y); simpl; [f_equal|]; apply IH.
Qed.

Lemma zip_fst_snd {A B} (l : list (A * B)) : zip (map fst l) (map snd l) = l.
Proof. induction l as [|[a b] l IH]; [done|]. simpl. by rewrite IH. Qed.

(** X10: when [Grid._unstructured_box] succeeds, the points it keeps are
    exactly the grid points inside the box, in grid order, at least one,
    and the sliced data has the leading axes and one axis of that many
    points; the new descriptor lists them. *)
Theorem unstructured_box_points_in_box (g : grid F) (data : ndarray F) (w n e s : F)
  (lat lon : ndarray F) (sliced : ndarray F) (nd : gmap string (pyval F)) :
  calc_lat_lon g = Ok (lat, lon) ->
  unstructured_box g data [w; n; e; s] = Ok (sliced, nd) ->
  exists lat_vals lon_vals,
    nd = unstructured_defaults (length lat_vals) lat_vals lon_vals /\
    zip lat_vals lon_vals =
      filter (fun p => in_bounds n s p.1 && in_bounds w e p.2 = true)
             (zip (nd_flat lat) (nd_flat lon)) /\
    length lon_vals = length lat_vals /\ (0 < length lat_vals)%nat /\
    nd_shape sliced =
      take (length (nd_shape data) - len_coords g) (nd_shape data) ++ [length lat_vals].
Proof.
  intros Hg. unfold unstructured_box. rewrite Hg. cbn [bind].
  destruct (decide _) as [_|_]; [discriminate|].
  set (f := fun la lo => in_bounds n s la && in_bounds w e lo).
  set (P := filter (fun p => f p.1 p.2 = true) (zip (nd_flat lat) (nd_flat lon))).
  destruct (decide _) as [Hz|Hz]; [discriminate|].
  intros [= <- <-].
  rewrite (mask_select_zip_with_l f), (mask_select_zip_with_r f). fold P.
  rewrite count_zip_with in Hz. fold P in Hz.
  exists (map fst P), (map snd P).
  split; [done|]. split; [apply zip_fst_snd|].
  rewrite !length_map. split; [done|]. split; [lia|].
  unfold mask_trailing. cbn [nd_shape]. by rewrite count_zip_with.
Qed.

(** X11: a box of other than four values is refused by both
    [Grid._structured_box] and [Grid._unstructured_box]. *)
Theorem box_length_not_four (d : gmap string (pyval F)) (g : grid F) (data : ndarray F)
  (ll_box : list F) :
  length ll_box <> 4%nat ->
  (forall dims, construct_dim d = Ok dims ->
     structured_box d data ll_box = Raise box_lengths_error) /\
  (forall lat lon, calc_lat_lon g = Ok (lat, lon) ->
     last_dims (len_coords g) (nd_shape data) = nd_shape lat ->
     unstructured_box g data ll_box = Raise box_lengths_error).
Proof.
  intros Hl. split.
  - intros [ys xs] Hd. unfold structured_box. rewrite Hd. cbn [bind].
    destruct ll_box as [|? [|? [|? [|? [|]]]]]; try done; simpl in Hl; lia.
  - intros lat lon Hg Hs. unfold unstructured_box. rewrite Hg. cbn [bind].
    rewrite decide_False by (intros E; by apply E). cbn [fst].
    destruct ll_box as [|? [|? [|? [|? [|]]]]]; try done; simpl in Hl; lia.
Qed.
End BoxProps.

Section CornerOrder.
Local Open Scope Q_scope.

Lemma s_ltb_Q_iff (x y : Q) : s_ltb x y = true <-> x < y.
Proof.
  cbn. rewrite negb_true_iff. split.
  - intros E. apply Qnot_le_lt. intros Hle. apply Qle_bool_iff in Hle. congruence.
  - intros Hlt. destruct (Qle_bool y x) eqn:E; [|done]. apply Qle_bool_iff in E. lra.
Qed.

Lemma in_bounds_Q_iff (a b v : Q) :
  in_bounds a b v = true <-> (a <= v /\ v <= b) \/ (b <= v /\ v <= a).
Proof.
  unfold in_bounds, np_min2, np_max2, s_isnan.
  cbn [s_eqb s_leb Q_scalar]. rewrite !Qeq_bool_refl. cbn [negb].
  rewrite andb_true_iff, !Qle_bool_iff.
  destruct (s_ltb b a) eqn:E1; destruct (s_ltb a b) eqn:E2.
  all: first [apply s_ltb_Q_iff in E1 | apply s_ltb_Q_false in E1].
  all: first [apply s_ltb_Q_iff in E2 | apply s_ltb_Q_false in E2].
  all: split; [intros [H1 H2]|intros [[H1 H2]|[H1 H2]]]; try lra.
  all: try (left; lra); try (right; lra); try (split; lra).
Qed.

Lemma in_bounds_Q_sym (a b v : Q) : in_bounds a b v = in_bounds b a v.
Proof.
  apply Bool.eq_true_iff_eq. rewrite !in_bounds_Q_iff. tauto.
Qed.

Lemma map_in_bounds_sym (a b : Q) (l : list Q) :
  map (in_bounds a b) l = map (in_bounds b a) l.
Proof. apply map_ext. intros v. apply in_bounds_Q_sym. Qed.

Lemma zip_with_ext_pw {A B C} (f g : A -> B -> C) (l1 : list A) (l2 : list B) :
  (forall x y, f x y = g x y) -> zip_with f l1 l2 = zip_with g l1 l2.
Proof.
  intros Hfg. revert l2. induction l1 as [|x l1 IH]; intros [|y l2]; try done.
  cbn [zip_with]. by rewrite Hfg, IH.
Qed.

(** X12: in exact arithmetic, swapping west and east, or north and south,
    in the box does not change the result of [Grid._structured_box] or
    [Grid._unstructured_box]. *)
Theorem box_corner_order (d : gmap string (pyval Q)) (g : grid Q) (data : ndarray Q)
  (w n e s : Q) :
  structured_box d data [e; n; w; s] = structured_box d data [w; n; e; s] /\
  structured_box d data [w; s; e; n] = structured_box d data [w; n; e; s] /\
  unstructured_box g data [e; n; w; s] = unstructured_box g data [w; n; e; s] /\
  unstructured_box g data [w; s; e; n] = unstructured_box g data [w; n; e; s].
Proof.
  split; [|split; [|split]].
  1,2: unfold structured_box; destruct (construct_dim d) as [[ys xs]| |]; cbn [bind]; try done.
  1: by rewrite (map_in_bounds_sym e w).
  1: by rewrite (map_in_bounds_sym s n).
  all: unfold unstructured_box; destruct (calc_lat_lon g) as [[la lo]| |]; cbn [bind]; try done.
  all: erewrite zip_with_ext_pw; [reflexivity|]; intros x y; cbv beta.
  all: f_equal; apply in_bounds_Q_sym.
Qed.
End CornerOrder.

Section InterpolateMesh.
Local Open Scope Q_scope.




End InterpolateMesh.

Section ExtraWitnesses.
Import QScenarios.


Lemma calc_lat_lon_shape_witness :
  grid_shape (grid_dict reg_grid) = Ok [3; 3]%nat.
Proof.
  destruct (calc_lat_lon_shape reg_grid reg_lat reg_lon) as [H _].
  - exists (grid_dict reg_grid). left. reflexivity.
  - vm_compute. reflexivity.
  - exact H.
Defined.

Lemma calc_lat_lon_lonlat_default_units_witness :
  calc_lat_lon reg_grid = Ok (reg_lat, reg_lon).
Proof.
  apply (calc_lat_lon_lonlat_default_units reg_dict [50; 51; 52]%float [10; 10.5; 11]%float);
    vm_compute; reflexivity.
Defined.

Lemma grid_eq_self_witness :
  grid_eq reg_grid (EqGrid reg_grid) = Ok true.
Proof.
  destruct (grid_eq_self reg_grid reg_lat reg_lon) as [H _].
  - vm_compute. reflexivity.
  - reflexivity.
  - rewrite H. vm_compute. reflexivity.
Defined.

Lemma nearest_point_in_grid_witness :
  exists i j, nearest_point id id id id reg_grid (51.25, 10.375)%float = Ok [i; j] /\
    (i < 3)%nat /\ (j < 3)%nat.
Proof.
  apply (nearest_point_in_grid id id id id reg_grid (51.25, 10.375)%float reg_lat reg_lon 3 3);
    first [vm_compute; reflexivity | lia].
Defined.

Lemma get_nearest_point_numpy_witness :
  exists out, get_nearest_point id id id id reg_grid (NpArray data33) (51.25, 10.375)%float
    = Ok (NpArray out) /\ nd_shape out = [1%nat].
Proof.
  destruct (get_nearest_point_numpy id id id id reg_grid (51.25, 10.375)%float reg_lat reg_lon 3 3 data33 [])
    as (i & j & out & _ & _ & _ & H & Hs & _); try first [vm_compute; reflexivity | lia].
  exists out. split; [exact H | exact Hs].
Defined.

Lemma normalize_lat_lon_infinite_lon_diverges_witness :
  normalize_lat_lon reg_lat (mk_nd [1; 1]%nat [PrimFloat.infinity]) None = Diverge.
Proof.
  apply (normalize_lat_lon_infinite_lon_diverges reg_lat (mk_nd [1; 1]%nat [PrimFloat.infinity]) None).
  left. reflexivity.
Defined.

Lemma unstructured_box_points_in_box_witness :
  exists sliced nd, unstructured_box reg_grid data33 box_four = Ok (sliced, nd) /\
    exists lat_vals lon_vals, (0 < length lat_vals)%nat /\
      zip lat_vals lon_vals =
        filter (fun p => in_bounds 51%float 50%float p.1 && in_bounds 10%float 10.5%float p.2 = true)
               (zip (nd_flat reg_lat) (nd_flat reg_lon)).
Proof.
  destruct (unstructured_box reg_grid data33 box_four) as [[sliced nd]| |] eqn:E;
    [|vm_compute in E; discriminate..].
  exists sliced, nd. split; [reflexivity|].
  destruct (unstructured_box_points_in_box reg_grid data33 10%float 51%float 10.5%float 50%float reg_lat reg_lon sliced nd)
    as (la & lo & _ & Hz & _ & Hp & _).
  - vm_compute. reflexivity.
  - exact E.
  - exists la, lo. split; [exact Hp | exact Hz].
Defined.

Lemma box_length_not_four_witness :
  structured_box reg_dict data33 [10; 52; 11]%float = Raise box_lengths_error.
Proof.
  destruct (box_length_not_four reg_dict reg_grid data33 [10; 52; 11]%float) as [H _].
  - discriminate.
  - apply (H ([50; 51; 52], [10; 10.5; 11])%float). vm_compute. reflexivity.
Defined.

End ExtraWitnesses.
